(** * Retirement planning calculator ([streamlit_app.py])

    A shallow embedding of the calculation functions of the Streamlit
    application and of the handler of its "Calculate Savings Projection"
    button, followed by the properties of the specification.

    Python values are modelled as the code has them:
    - [int] as [Z] (unbounded);
    - [str] as [string], compared with [String.eqb] where the code uses [==];
    - [None]-or-a-number as [option];
    - [float] through the class [Arith], whose instance [binary64] is IEEE 754
      double precision (Rocq's primitive floats, the arithmetic CPython
      uses), with the C library's [pow] as a parameter;
    - an exception as the [Raise] outcome of the result type [res]. *)

From Stdlib Require Import ZArith List String Ascii Bool Lia.
From Stdlib Require Import DecimalString Floats.
Import ListNotations.

Set Implicit Arguments.
Open Scope Z_scope.

(** ** Python outcomes: a value or an exception *)

Inductive exn : Type :=
| ValueError
| OverflowError
| ZeroDivisionError.

Inductive res (A : Type) : Type :=
| Ok (a : A)
| Raise (e : exn).

Arguments Ok {A} a.
Arguments Raise {A} e.

Definition bind {A B : Type} (c : res A) (k : A -> res B) : res B :=
  match c with
  | Ok a => k a
  | Raise e => Raise e
  end.

Declare Scope py_scope.
Delimit Scope py_scope with py.
Notation "x <- c ;; k" := (bind c (fun x => k))
  (at level 61, c at next level, right associativity) : py_scope.

(** [range(lo, hi)]: the integers [lo], [lo+1], ..., [hi-1]; empty when
    [hi <= lo]. *)
Definition range (lo hi : Z) : list Z :=
  map (fun i => (lo + Z.of_nat i)%Z) (seq 0 (Z.to_nat (hi - lo))).

(** [for x in xs: s = body(x, s)], stopping at the first exception. *)
Fixpoint for_in {A S : Type} (xs : list A) (body : A -> S -> res S) (s : S)
  : res S :=
  match xs with
  | [] => Ok s
  | x :: xs' => bind (body x s) (for_in xs' body)
  end.

(** The values of a generator expression [f(x) for x in xs], in order, or
    the first exception. *)
Fixpoint genexpr {A B : Type} (f : A -> res B) (xs : list A) : res (list B) :=
  match xs with
  | [] => Ok []
  | x :: xs' =>
      bind (f x) (fun y => bind (genexpr f xs') (fun ys => Ok (y :: ys)))
  end.

(** [str(n)] for an [int]. *)
Definition str_of_int (n : Z) : string :=
  DecimalString.NilZero.string_of_int (Z.to_int n).

(** ** The recommenders (lines 15-56 of the source) *)

Module Text.

Definition employer_401k : string :=
  "401(k) — contribute at least enough to get your employer match. Consider a Roth IRA for tax-free withdrawals.".

Definition self_employed : string :=
  "SEP IRA or Solo 401(k) — great for business owners.".

Definition roth : string :=
  "Roth IRA (if eligible). If not, consider Traditional IRA or brokerage.".

Definition traditional : string :=
  "Traditional IRA or taxable brokerage account.".

Definition generic_guidance : string :=
  "Try to save 10–15% of your income. If unsure, start with what you can and increase over time.".

Definition low_risk : string :=
  "Low risk: more bonds. Smaller swings, slower growth.".

Definition high_risk : string :=
  "High risk: more stocks. Bigger swings, higher growth potential.".

Definition medium_risk : string :=
  "Medium risk: balance of stocks and bonds.".

End Text.

Definition recommend_account
    (employment : string) (has_401k : bool) (income : option Z) : string :=
  if (employment =? "Employed")%string && has_401k then Text.employer_401k
  else if (employment =? "Self-Employed")%string then Text.self_employed
  else if match income with None => true | Some i => (i <? 145000)%Z end
       then Text.roth
  else Text.traditional.

Definition recommend_allocation (age : Z) (risk : string) : Z * Z :=
  let base_stock :=
    if age <? 30 then 90
    else if age <? 40 then 85
    else if age <? 50 then 75
    else if age <? 60 then 65
    else 50 in
  let stock :=
    if (risk =? "High")%string then Z.min 95 (base_stock + 10)
    else if (risk =? "Low")%string then Z.max 30 (base_stock - 20)
    else base_stock in
  let bond := 100 - stock in
  (stock, bond).

Definition explain_risk (risk : string) : string :=
  if (risk =? "Low")%string then Text.low_risk
  else if (risk =? "High")%string then Text.high_risk
  else Text.medium_risk.

(** ** Arithmetic of [float]

    The operations the projection code applies to its [float] values.
    [of_int] is the conversion of the [int] literals of the code ([1], [12],
    [100], [0]) met in mixed expressions such as [annual_return / 100];
    [pow x k] is [math.pow(x, k)] for an [int] [k], which converts [k] and
    can raise. *)

Class Arith (num : Type) : Type := {
  of_int : Z -> num;
  add : num -> num -> num;
  sub : num -> num -> num;
  mul : num -> num -> num;
  div : num -> num -> num;
  eqb : num -> num -> bool;
  ltb : num -> num -> bool;
  pow : num -> Z -> res num
}.

Declare Scope num_scope.
Delimit Scope num_scope with num.
Infix "+" := add : num_scope.
Infix "-" := sub : num_scope.
Infix "*" := mul : num_scope.
Infix "/" := div : num_scope.
Infix "=?" := eqb : num_scope.
Infix "<?" := ltb : num_scope.

(** [x / y] where the divisor is not a literal: Python raises
    [ZeroDivisionError] when [y == 0]. *)
Definition truediv {num : Type} {A : Arith num} (x y : num) : res num :=
  if (y =? of_int 0)%num then Raise ZeroDivisionError else Ok (x / y)%num.

(** The built-in [sum] of CPython up to 3.11 on [float]s: the items are
    added from the left, starting from the [int] 0. *)
Definition sum_left_to_right {num : Type} {A : Arith num} (xs : list num)
  : num :=
  fold_left add xs (of_int 0).

(** *** IEEE 754 binary64, the arithmetic of CPython's [float] *)

(** [float(n)] rounded to nearest, ties to even. *)
Definition float_literal (n : Z) : float :=
  SF2Prim (binary_normalize prec emax n 0 false).

(** The same conversion where it is applied to a run-time [int]: CPython
    raises [OverflowError] when the result is not finite. *)
Definition float_of_int (n : Z) : res float :=
  match binary_normalize prec emax n 0 false with
  | S754_infinity _ => Raise OverflowError
  | sf => Ok (SF2Prim sf)
  end.

(** [math.pow] is the [pow] of the platform's C library, which no standard
    fixes bit for bit: it is a parameter [libm_pow] of the instance.  C99
    Annex F, repeated by the documentation of [math.pow], fixes two cases:
    [pow(x, 0.0)] and [pow(1.0, y)] are [1.0] for every [x] and [y]. *)
Definition binary64 (libm_pow : float -> float -> res float) : Arith float := {|
  of_int := float_literal;
  add := PrimFloat.add;
  sub := PrimFloat.sub;
  mul := PrimFloat.mul;
  div := PrimFloat.div;
  eqb := PrimFloat.eqb;
  ltb := PrimFloat.ltb;
  pow := fun x k => bind (float_of_int k) (libm_pow x)
|}.

Record AnnexF (libm_pow : float -> float -> res float) : Prop := {
  pow_zero_exponent : forall x, libm_pow x 0%float = Ok 1%float;
  pow_one_base : forall y, libm_pow 1%float y = Ok 1%float
}.

(** The least defined [pow] that meets Annex F: it answers in the two cases
    above and nowhere else.  It runs the code at a zero return or a zero
    horizon, where no other case is reached. *)
Definition pow_annex_f (x y : float) : res float :=
  if PrimFloat.eqb y 0 then Ok 1%float
  else if PrimFloat.eqb x 1 then Ok 1%float
  else Raise ValueError.

(** ** Savings projector (lines 58-64) *)

Section Projection.
Context {num : Type} {A : Arith num}.
Local Open Scope num_scope.
Local Open Scope py_scope.

Definition project_savings
    (current_savings monthly_contribution : num) (years : Z)
    (annual_return : num) : res num :=
  let r := annual_return / of_int 100 / of_int 12 in
  let months := (years * 12)%Z in
  p <- pow (of_int 1 + r) months ;;
  let fv := current_savings * p in
  for_in (range 1 (months + 1))
    (fun m fv =>
       p <- pow (of_int 1 + r) (months - m + 1)%Z ;;
       Ok (fv + monthly_contribution * p))
    fv.

End Projection.

(** ** The "Calculate Savings Projection" handler (lines 106-124)

    What the handler does is recorded as the list of its actions: the call of
    the projector, the Streamlit calls that report a result (their text is
    kept as the values it is formatted from), and an exception that escapes. *)

Inductive action (num : Type) : Type :=
| call_project_savings
    (current_savings monthly_contribution : num) (years : Z)
    (expected_return : num)
| st_error_retirement_age
| st_subheader_projected (retire_age : Z) (projected : num)
| st_error_shortfall (shortfall : num)
| st_info_needed_extra (needed_extra : num)
| st_success_on_track
| uncaught (e : exn).

Arguments st_error_retirement_age {num}.
Arguments st_success_on_track {num}.
Arguments uncaught {num} e.

Section Handler.
Context {num : Type} {A : Arith num}.
Local Open Scope num_scope.
Local Open Scope py_scope.

(** The built-in [sum] applied to [float]s.  What it returns depends on the
    version of CPython: up to 3.11 it is [sum_left_to_right], from 3.12 on
    the rounding errors are compensated.  The source does not fix the
    version, so the handler takes [sum] as a parameter. *)
Variable py_sum : list num -> num.

(** [sum(pow(1 + r, months - m + 1) for m in range(1, months + 1))] *)
Definition future_factor (years : Z) (expected_return : num) : res num :=
  let r := expected_return / of_int 100 / of_int 12 in
  let months := (years * 12)%Z in
  ts <- genexpr (fun m => pow (of_int 1 + r) (months - m + 1)%Z)
          (range 1 (months + 1)) ;;
  Ok (py_sum ts).

Definition needed_extra (shortfall : num) (years : Z) (expected_return : num)
  : res num :=
  future_factor <- future_factor years expected_return ;;
  truediv shortfall future_factor.

Definition calculate_savings_projection
    (age retire_age : Z)
    (current_savings monthly_contribution expected_return goal : num)
  : list (action num) :=
  let years := (retire_age - age)%Z in
  if (years <=? 0)%Z then [st_error_retirement_age]
  else
    call_project_savings current_savings monthly_contribution years
      expected_return ::
    match project_savings current_savings monthly_contribution years
            expected_return with
    | Raise e => [uncaught e]
    | Ok projected =>
        st_subheader_projected retire_age projected ::
        if projected <? goal then
          let shortfall := goal - projected in
          st_error_shortfall shortfall ::
          match needed_extra shortfall years expected_return with
          | Raise e => [uncaught e]
          | Ok extra => [st_info_needed_extra extra]
          end
        else [st_success_on_track]
    end.

End Handler.

(** ** Contribution guidance (lines 44-49) and the income input (line 73) *)

(** [round(x)] for a [float]: the nearest [int], ties to even. *)
Definition round (x : float) : res Z :=
  match Prim2SF x with
  | S754_nan => Raise ValueError
  | S754_infinity _ => Raise OverflowError
  | S754_zero _ => Ok 0
  | S754_finite s m e =>
      let n :=
        if 0 <=? e then Z.pos m * 2 ^ e
        else
          let d := 2 ^ (- e) in
          let q := Z.pos m / d in
          match 2 * (Z.pos m mod d) ?= d with
          | Lt => q
          | Gt => q + 1
          | Eq => if Z.even q then q else q + 1
          end in
      Ok (if s then - n else n)
  end.

#[local] Set Warnings "-inexact-float".

(** The text of the computed range,
    [f"Goal: 10–15% of income → about ${monthly_10}/mo to ${monthly_15}/mo"]. *)
Definition range_text (monthly_10 monthly_15 : Z) : string :=
  ("Goal: 10–15% of income → about $" ++ str_of_int monthly_10
   ++ "/mo to $" ++ str_of_int monthly_15 ++ "/mo")%string.

(** [n * y] for an [int] [n] and a [float] [y]: the [int] is converted. *)
Definition int_times_float (n : Z) (y : float) : res float :=
  (x <- float_of_int n ;; Ok (x * y)%float)%py.

Definition contribution_guidance (income : option Z) : res string :=
  match income with
  | None => Ok Text.generic_guidance
  | Some income =>
      (a <- int_times_float income 0.10 ;;
       monthly_10 <- round (a / 12) ;;
       b <- int_times_float income 0.15 ;;
       monthly_15 <- round (b / 12) ;;
       Ok (range_text monthly_10 monthly_15))%py
  end.

(** [income = st.number_input(..., min_value=0, ...) or None]: the widget
    returns an [int], and [0] is falsy. *)
Definition income_input (entered : Z) : option Z :=
  if entered =? 0 then None else Some entered.

(** ** The specification's descriptions, for comparison with the code *)

Inductive RiskTolerance : Type := Low | Medium | High.

(** The labels of the "Risk Comfort Level" radio button (line 77). *)
Definition risk_label (t : RiskTolerance) : string :=
  match t with
  | Low => "Low"
  | Medium => "Medium"
  | High => "High"
  end.

(** The age brackets of section 4.1, half-open on the upper bound. *)
Inductive base_stock_of_age (age : Z) : Z -> Prop :=
| bracket_under_30 : age < 30 -> base_stock_of_age age 90
| bracket_30_39 : 30 <= age < 40 -> base_stock_of_age age 85
| bracket_40_49 : 40 <= age < 50 -> base_stock_of_age age 75
| bracket_50_59 : 50 <= age < 60 -> base_stock_of_age age 65
| bracket_60_up : 60 <= age -> base_stock_of_age age 50.

Definition adjust_by_risk (t : RiskTolerance) (base : Z) : Z :=
  match t with
  | High => Z.min 95 (base + 10)
  | Low => Z.max 30 (base - 20)
  | Medium => base
  end.

(** The ordered rules of section 4.2: a condition and the advice it selects. *)
Record profile : Type := {
  employment_status : string;
  access_401k : bool;
  annual_income : option Z
}.

Definition account_rules : list ((profile -> bool) * string) :=
  [ (fun p => (employment_status p =? "Employed")%string && access_401k p,
     Text.employer_401k);
    (fun p => (employment_status p =? "Self-Employed")%string,
     Text.self_employed);
    (fun p => match annual_income p with
              | None => true
              | Some i => i <? 145000
              end,
     Text.roth) ].

(** First match wins; [otherwise] when no rule matches. *)
Fixpoint first_match (rules : list ((profile -> bool) * string))
    (otherwise : string) (p : profile) : string :=
  match rules with
  | [] => otherwise
  | (condition, advice) :: rest =>
      if condition p then advice else first_match rest otherwise p
  end.

Section Formula.
Context {num : Type} {A : Arith num}.
Local Open Scope num_scope.
Local Open Scope py_scope.

(** The terms of section 4.5 for a monthly rate [r]: the future value of the
    lump sum, [currentSavings * (1+r)^months], and of the contribution of
    month [m], [monthlyContribution * (1+r)^(months-m+1)]. *)
Definition lump_sum_fv (current_savings r : num) (months : Z) : res num :=
  p <- pow (of_int 1 + r) months ;; Ok (current_savings * p).

Definition contribution_fv (monthly_contribution r : num) (months m : Z)
  : res num :=
  p <- pow (of_int 1 + r) (months - m + 1)%Z ;; Ok (monthly_contribution * p).

(** The values of [f m] for the [m] of [ms], in order. *)
Fixpoint terms (f : Z -> res num) (ms : list Z) : res (list num) :=
  match ms with
  | [] => Ok []
  | m :: ms' => t <- f m ;; ts <- terms f ms' ;; Ok (t :: ts)
  end.

(** [x + t1 + t2 + ... + tn], added from the left. *)
Definition plus_sum (x : num) (ts : list num) : num := fold_left add ts x.

(** [currentSavings * (1+r)^months] plus the sum over [m = 1..months] of
    [monthlyContribution * (1+r)^(months-m+1)], with
    [r = annualReturnPercent/100/12] and [months = years * 12]. *)
Definition annuity_due_fv
    (current_savings monthly_contribution : num) (years : Z)
    (annual_return_percent : num) : res num :=
  let r := annual_return_percent / of_int 100 / of_int 12 in
  let months := (years * 12)%Z in
  lump <- lump_sum_fv current_savings r months ;;
  ts <- terms (contribution_fv monthly_contribution r months)
          (map Z.of_nat (seq 1 (Z.to_nat months))) ;;
  Ok (plus_sum lump ts).

End Formula.

(** The identities of multiplication and of [pow] that the code relies on at
    a zero horizon. *)
Class UnitLaws (num : Type) {A : Arith num} : Prop := {
  mul_one_r : forall x : num, (x * of_int 1)%num = x;
  pow_zero_r : forall x : num, pow x 0 = Ok (of_int 1)
}.

Arguments UnitLaws num {A}.

(** ** The personal-information inputs (lines 74-76) and the
    "Generate Retirement Plan" handler (lines 82-95) *)

(** [has_401k] is [False] unless the user is employed, and then it is
    whether the radio button "Do you have access to a 401(k)?" says "Yes";
    [answer] is the radio's value. *)
Definition has_401k_input (employment answer : string) : bool :=
  if (employment =? "Employed")%string then (answer =? "Yes")%string
  else false.

(** The Streamlit calls of the plan, with the text they are given. *)
Inductive widget : Type :=
| st_subheader (text : string)
| st_write (text : string)
| st_info (text : string).

(** The four recommenders are called first, so an exception of
    [contribution_guidance] escapes before anything is displayed. *)
Definition generate_retirement_plan
    (employment : string) (has_401k : bool) (income : option Z)
    (age : Z) (risk : string) : res (list widget) :=
  let acct := recommend_account employment has_401k income in
  let '(stock, bond) := recommend_allocation age risk in
  (contrib <- contribution_guidance income ;;
   let risk_text := explain_risk risk in
   Ok [ st_subheader "📋 Your Retirement Plan";
        st_write ("**Account Recommendation:** " ++ acct);
        st_write ("**Suggested Investment Allocation:** " ++ str_of_int stock
                  ++ "% Stocks / " ++ str_of_int bond ++ "% Bonds");
        st_write ("**Contribution Guidance:** " ++ contrib);
        st_write ("**Risk Explanation:** " ++ risk_text);
        st_info "💡 Consider using a Target Date Fund or a simple 3-fund mix (US Stock, Intl Stock, Bond)." ])%py%string.

(** A second stand-in for the C library's [pow]: it meets Annex F and
    answers with the base in the other cases. *)
Definition pow_annex_f_or_base (x y : float) : res float :=
  if PrimFloat.eqb y 0 then Ok 1%float
  else if PrimFloat.eqb x 1 then Ok 1%float
  else Ok x.

(** * Properties *)

(** ** Allocation recommender *)

Lemma base_stock_of_age_total (age : Z) :
  { base : Z | base_stock_of_age age base }.
Proof.
  destruct (Z_lt_dec age 30); [exists 90; constructor; lia |].
  destruct (Z_lt_dec age 40); [exists 85; constructor; lia |].
  destruct (Z_lt_dec age 50); [exists 75; constructor; lia |].
  destruct (Z_lt_dec age 60); [exists 65; constructor; lia |].
  exists 50; constructor; lia.
Qed.

Lemma base_stock_of_age_functional (age b1 b2 : Z) :
  base_stock_of_age age b1 -> base_stock_of_age age b2 -> b1 = b2.
Proof. intros H1 H2; inversion H1; inversion H2; subst; lia. Qed.

Lemma recommend_allocation_bracket (age base : Z) (t : RiskTolerance) :
  base_stock_of_age age base ->
  recommend_allocation age (risk_label t)
  = (adjust_by_risk t base, 100 - adjust_by_risk t base).
Proof.
  intros Hb. unfold recommend_allocation.
  inversion Hb; subst;
    repeat match goal with
           | |- context [?a <? ?b] =>
               let E := fresh in
               destruct (Z.ltb_spec a b) as [E | E]; try lia
           end;
    destruct t; reflexivity.
Qed.

(** C4: for every age (in particular 18..100) and every risk tolerance the
    recommender returns [(stock, 100 - stock)], where [stock] is the base
    percentage of the age's half-open bracket (under 30: 90, under 40: 85,
    under 50: 75, under 60: 65, otherwise 50) adjusted to [min(95, base+10)]
    for High, [max(30, base-20)] for Low and left as it is for Medium. *)
Theorem recommend_allocation_spec (age : Z) (t : RiskTolerance) :
  exists base : Z,
    base_stock_of_age age base /\
    recommend_allocation age (risk_label t)
    = (adjust_by_risk t base, 100 - adjust_by_risk t base).
Proof.
  destruct (base_stock_of_age_total age) as [base Hb].
  exists base. split; [exact Hb | now apply recommend_allocation_bracket].
Qed.

Example allocation_age_29_high : recommend_allocation 29 "High" = (95, 5).
Proof. reflexivity. Qed.

Example allocation_age_30_medium : recommend_allocation 30 "Medium" = (85, 15).
Proof. reflexivity. Qed.

Example allocation_age_60_low : recommend_allocation 60 "Low" = (30, 70).
Proof. reflexivity. Qed.

(** C5: whatever the age and the risk string, the two percentages add up to
    100 and the stock percentage lies in [30, 95]. *)
Theorem recommend_allocation_invariant (age : Z) (risk : string) :
  fst (recommend_allocation age risk) + snd (recommend_allocation age risk)
  = 100
  /\ 30 <= fst (recommend_allocation age risk) <= 95.
Proof.
  unfold recommend_allocation; cbn [fst snd].
  destruct (age <? 30), (age <? 40), (age <? 50), (age <? 60),
    (risk =? "High")%string, (risk =? "Low")%string; cbn; lia.
Qed.

(** ** Account recommender *)

Lemma recommend_account_first_match
    (employment : string) (has_401k : bool) (income : option Z) :
  recommend_account employment has_401k income
  = first_match account_rules Text.traditional
      {| employment_status := employment;
         access_401k := has_401k;
         annual_income := income |}.
Proof. reflexivity. Qed.

(** C6: an employed user with access to a 401(k) gets the employer-match
    advice whatever the income (unknown, below or above 145000), and in
    general the answer is that of the first rule, in the order of the
    specification, whose condition holds: no later rule is consulted. *)
Theorem recommend_account_rule_order :
  (forall income : option Z,
     recommend_account "Employed" true income = Text.employer_401k)
  /\ (forall (has_401k : bool) (income : option Z),
        recommend_account "Self-Employed" has_401k income
        = Text.self_employed)
  /\ (forall (employment : string) (has_401k : bool) (income : option Z),
        recommend_account employment has_401k income
        = first_match account_rules Text.traditional
            {| employment_status := employment;
               access_401k := has_401k;
               annual_income := income |}).
Proof.
  split; [| split].
  - intros income. reflexivity.
  - intros has_401k income. reflexivity.
  - intros. apply recommend_account_first_match.
Qed.

Example account_high_income_employed :
  recommend_account "Employed" true (Some 200000) = Text.employer_401k
  /\ recommend_account "Not Working" false (Some 200000) = Text.traditional
  /\ recommend_account "Employed" false (Some 144999) = Text.roth.
Proof. repeat split. Qed.

(** ** Contribution guidance *)

Lemma generic_guidance_is_not_a_range (monthly_10 monthly_15 : Z) :
  Text.generic_guidance <> range_text monthly_10 monthly_15.
Proof. discriminate. Qed.

(** Called with the number 0 itself, the function computes a range. *)
Remark contribution_guidance_of_zero :
  contribution_guidance (Some 0) = Ok (range_text 0 0).
Proof. reflexivity. Qed.

Example contribution_guidance_80000 :
  contribution_guidance (income_input 80000) = Ok (range_text 667 1000).
Proof. vm_compute. reflexivity. Qed.

(** C7: for an absent income, and for an income of 0 as the form passes it
    on (line 73 turns 0 into [None]), the guidance is the generic text: the
    call returns, raising nothing, and its result is not a computed range. *)
Theorem contribution_guidance_unknown_income :
  contribution_guidance None = Ok Text.generic_guidance
  /\ contribution_guidance (income_input 0) = Ok Text.generic_guidance
  /\ forall monthly_10 monthly_15 : Z,
       Text.generic_guidance <> range_text monthly_10 monthly_15.
Proof.
  split; [reflexivity | split; [reflexivity |]].
  exact generic_guidance_is_not_a_range.
Qed.

(** ** The handler's horizon check *)

Section HandlerFacts.
Context {num : Type} {A : Arith num}.

Lemma valid_horizon_calls_projector
    (py_sum : list num -> num)
    (age retire_age : Z) (current_savings monthly_contribution : num)
    (expected_return goal : num) :
  age < retire_age ->
  hd_error (calculate_savings_projection py_sum age retire_age
              current_savings monthly_contribution expected_return goal)
  = Some (call_project_savings current_savings monthly_contribution
            (retire_age - age) expected_return).
Proof.
  intros Hlt. unfold calculate_savings_projection.
  destruct (Z.leb_spec (retire_age - age) 0); [lia | reflexivity].
Qed.

(** C9: when the retirement age does not exceed the current age, all the
    handler does is report the error: it does not call the projector and
    shows no projection, shortfall or extra contribution.  This holds in
    every arithmetic and for every version of [sum]. *)
Theorem invalid_horizon_rejected
    (py_sum : list num -> num)
    (age retire_age : Z) (current_savings monthly_contribution : num)
    (expected_return goal : num) :
  retire_age <= age ->
  calculate_savings_projection py_sum age retire_age current_savings
    monthly_contribution expected_return goal
  = [st_error_retirement_age].
Proof.
  intros Hle. unfold calculate_savings_projection.
  destruct (Z.leb_spec (retire_age - age) 0); [reflexivity | lia].
Qed.

End HandlerFacts.

Lemma invalid_horizon_rejected_witness :
  39 <= 40
  /\ calculate_savings_projection (A := binary64 pow_annex_f)
       (sum_left_to_right (A := binary64 pow_annex_f)) 40 39
       10000%float 500%float 6%float 1000000%float
     = [st_error_retirement_age].
Proof.
  split; [lia |].
  apply (@invalid_horizon_rejected float (binary64 pow_annex_f)); lia.
Defined.

(** ** The projector computes the annuity-due formula *)

Section ProjectionFacts.
Context {num : Type} {A : Arith num}.
Local Open Scope num_scope.

Lemma range_from_one (n : Z) :
  range 1 (n + 1) = map Z.of_nat (seq 1 (Z.to_nat n)).
Proof.
  unfold range. replace (n + 1 - 1)%Z with n by lia.
  rewrite <- seq_shift, map_map.
  apply map_ext. intros i. lia.
Qed.

Lemma loop_adds_terms (monthly_contribution r : num) (months : Z)
    (ms : list Z) (fv : num) :
  for_in ms
    (fun m fv =>
       bind (pow (of_int 1 + r) (months - m + 1)%Z)
         (fun p => Ok (fv + monthly_contribution * p)))
    fv
  = bind (terms (contribution_fv monthly_contribution r months) ms)
      (fun ts => Ok (plus_sum fv ts)).
Proof.
  revert fv. induction ms as [| m ms IH]; intros fv; cbn.
  - reflexivity.
  - unfold contribution_fv at 1.
    destruct (pow (of_int 1 + r) (months - m + 1)%Z) as [p | e]; cbn;
      [| reflexivity].
    rewrite IH.
    destruct (terms (contribution_fv monthly_contribution r months) ms);
      reflexivity.
Qed.

(** C1: the projector returns the future value of the lump sum,
    [currentSavings * (1+r)^months], plus the future values
    [monthlyContribution * (1+r)^(months-m+1)] of the contributions of the
    months [m = 1..months], where [r = annualReturnPercent/100/12] and
    [months = years * 12]; the terms are added in the order of [m].  This
    holds in every arithmetic, binary64 included, and for every input. *)
Theorem project_savings_annuity_due
    (current_savings monthly_contribution : num) (years : Z)
    (annual_return : num) :
  project_savings current_savings monthly_contribution years annual_return
  = annuity_due_fv current_savings monthly_contribution years annual_return.
Proof.
  unfold project_savings, annuity_due_fv, lump_sum_fv.
  destruct (pow _ (years * 12)%Z) as [p | e]; cbn; [| reflexivity].
  rewrite range_from_one. apply loop_adds_terms.
Qed.

(** With a negative horizon the loop is empty as well: the projector
    returns the lump-sum term alone and rejects nothing by itself. *)
Lemma project_savings_negative_years
    (current_savings monthly_contribution : num) (years : Z)
    (annual_return : num) :
  years < 0 ->
  project_savings current_savings monthly_contribution years annual_return
  = lump_sum_fv current_savings (annual_return / of_int 100 / of_int 12)
      (years * 12).
Proof.
  intros Hneg. unfold project_savings, lump_sum_fv, range.
  replace (Z.to_nat (years * 12 + 1 - 1)) with 0%nat by lia.
  destruct (pow _ (years * 12)%Z); reflexivity.
Qed.

End ProjectionFacts.

(** ** Identities of binary64 *)

Lemma shr_1_52_times (m : positive) :
  SpecFloat.iter_pos shr_1 52
    {| shr_m := Z.pos (4503599627370496 * m);
       shr_r := false; shr_s := false |}
  = {| shr_m := Z.pos m; shr_r := false; shr_s := false |}.
Proof. cbv -[Pos.mul]. cbn [Pos.mul]. reflexivity. Qed.

Lemma digits2_pos_shift_52 (m : positive) :
  digits2_pos (4503599627370496 * m) = (digits2_pos m + 52)%positive.
Proof. cbn [Pos.mul digits2_pos]. lia. Qed.

(** Rounding the exact product of a binary64 mantissa with that of 1.0
    (2^52, exponent -52) gives the mantissa back. *)
Lemma binary_round_aux_times_one (s : bool) (m : positive) (e : Z) :
  bounded prec emax m e = true ->
  binary_round_aux prec emax s (Z.pos (m * 4503599627370496)) (e + -52)
    loc_Exact
  = S754_finite s m e.
Proof.
  intros Hb. unfold bounded, canonical_mantissa in Hb.
  apply andb_true_iff in Hb. destruct Hb as [Hc He].
  apply Z.eqb_eq in Hc.
  rewrite Pos.mul_comm. unfold binary_round_aux.
  assert (H1 : shr_fexp prec emax (Z.pos (4503599627370496 * m)) (e + -52)
                 loc_Exact
               = ({| shr_m := Z.pos m; shr_r := false; shr_s := false |}, e)).
  { unfold shr_fexp. cbn [Zdigits2]. rewrite digits2_pos_shift_52.
    replace (Z.pos (digits2_pos m + 52) + (e + -52))
      with (Z.pos (digits2_pos m) + e) by lia.
    rewrite Hc. replace (e - (e + -52)) with 52 by lia.
    cbn [shr_record_of_loc shr]. rewrite shr_1_52_times. f_equal. lia. }
  rewrite H1. cbn [shr_m loc_of_shr_record round_nearest_even].
  assert (H2 : shr_fexp prec emax (Z.pos m) e loc_Exact
               = ({| shr_m := Z.pos m; shr_r := false; shr_s := false |}, e)).
  { unfold shr_fexp. cbn [Zdigits2]. rewrite Hc, Z.sub_diag. reflexivity. }
  rewrite H2. cbn [shr_m]. rewrite He. reflexivity.
Qed.

Lemma SFmul_one_r (x : spec_float) :
  valid_binary x = true ->
  SFmul prec emax x (S754_finite false 4503599627370496 (-52)) = x.
Proof.
  destruct x as [s | s | | s m e]; cbn [SFmul SpecFloat.valid_binary];
    intros Hv; rewrite ?xorb_false_r; try reflexivity.
  now apply binary_round_aux_times_one.
Qed.

(** [x * 1.0 == x] bit for bit, for every binary64 value (NaN, infinities
    and signed zeros included). *)
Lemma float_mul_one_r (x : float) : (x * 1)%float = x.
Proof.
  apply Prim2SF_inj. rewrite mul_spec. unfold SF64mul.
  change (Prim2SF 1) with (S754_finite false 4503599627370496 (-52)).
  apply SFmul_one_r, Prim2SF_valid.
Qed.

Lemma float_literal_one : float_literal 1 = 1%float.
Proof. vm_compute. reflexivity. Qed.

Lemma pow_annex_f_meets_annex_f : AnnexF pow_annex_f.
Proof.
  split.
  - intros x. reflexivity.
  - intros y. unfold pow_annex_f. destruct (PrimFloat.eqb y 0); reflexivity.
Qed.

#[export] Instance binary64_unit_laws
    (libm_pow : float -> float -> res float) (F : AnnexF libm_pow) :
  UnitLaws float (A := binary64 libm_pow).
Proof.
  split.
  - intros x.
    change (x * float_literal 1 = x)%float.
    rewrite float_literal_one. apply float_mul_one_r.
  - intros x.
    change (bind (float_of_int 0) (libm_pow x) = Ok (float_literal 1)).
    rewrite float_literal_one.
    change (float_of_int 0) with (Ok 0%float).
    apply (pow_zero_exponent F).
Qed.

(** ** The projector at a zero horizon *)

Section ZeroHorizon.
Context {num : Type} {A : Arith num} {U : UnitLaws num}.

(** C10: with [years = 0] the projector raises nothing and returns exactly
    [current_savings], whatever the contribution and the return: [months] is
    0, the lump sum is multiplied by [pow(1+r, 0) = 1.0] and the loop runs
    over the empty [range(1, 1)].  The check [years <= 0] is made by the
    handler only. *)
Theorem project_savings_zero_years
    (current_savings monthly_contribution annual_return : num) :
  project_savings current_savings monthly_contribution 0 annual_return
  = Ok current_savings.
Proof.
  unfold project_savings. change (0 * 12) with 0.
  rewrite pow_zero_r. cbn. now rewrite mul_one_r.
Qed.

End ZeroHorizon.

Lemma project_savings_zero_years_witness :
  project_savings (A := binary64 pow_annex_f)
    10000.5%float 500%float 0 6%float
  = Ok 10000.5%float.
Proof.
  apply (@project_savings_zero_years float (binary64 pow_annex_f)
           (binary64_unit_laws pow_annex_f_meets_annex_f)).
Defined.

(** ** The projector in binary64 at a zero return *)

Lemma for_in_ext {X S : Type} (f g : X -> S -> res S) (xs : list X) (s : S) :
  (forall x s, f x s = g x s) -> for_in xs f s = for_in xs g s.
Proof.
  intros Hfg. revert s. induction xs as [| x xs IH]; intros s; cbn.
  - reflexivity.
  - rewrite Hfg. destruct (g x s); cbn; [apply IH | reflexivity].
Qed.

Lemma pow_base_one_any_libm
    (libm_pow : float -> float -> res float) (F : AnnexF libm_pow) (k : Z) :
  pow (Arith := binary64 libm_pow) 1%float k
  = pow (Arith := binary64 pow_annex_f) 1%float k.
Proof.
  cbn [pow binary64]. destruct (float_of_int k) as [y | e]; cbn [bind].
  - now rewrite (pow_one_base F), (pow_one_base pow_annex_f_meets_annex_f).
  - reflexivity.
Qed.

(** At a zero return every [pow] of the code has base [1.0], so the result
    is the same for every C library that meets Annex F. *)
Lemma project_savings_zero_return_any_libm
    (libm_pow : float -> float -> res float) (F : AnnexF libm_pow)
    (S M : float) (Y : Z) :
  project_savings (A := binary64 libm_pow) S M Y 0%float
  = project_savings (A := binary64 pow_annex_f) S M Y 0%float.
Proof.
  unfold project_savings. cbn [of_int add div mul binary64].
  replace (float_literal 1 + 0 / float_literal 100 / float_literal 12)%float
    with 1%float by (vm_compute; reflexivity).
  rewrite (pow_base_one_any_libm F).
  destruct (pow (Arith := binary64 pow_annex_f) 1%float (Y * 12));
    cbn [bind]; [| reflexivity].
  apply for_in_ext. intros m fv.
  now rewrite (pow_base_one_any_libm F).
Qed.

(** C3 as stated fails in binary64: with 10000.0 saved, 500.10 contributed
    each month for 35 years and a zero return the code returns
    220042.00000000166, while [S + M * Y * 12] is 220042.0, and the two are
    not [==]. *)
Lemma project_savings_zero_return_binary64 :
  project_savings (A := binary64 pow_annex_f)
    10000%float 500.10%float 35 0%float
  = Ok 220042.00000000166%float
  /\ (10000 + 500.10 * 35 * 12)%float = 220042%float
  /\ PrimFloat.eqb 220042.00000000166 220042 = false.
Proof. repeat split; vm_compute; reflexivity. Qed.

(** With 10000.0 saved and 500.0 a month every partial sum is a binary64
    number, and the two agree. *)
Example zero_return_whole_amounts :
  project_savings (A := binary64 pow_annex_f) 10000%float 500%float 35 0%float
  = Ok (10000 + 500 * 35 * 12)%float.
Proof. vm_compute. reflexivity. Qed.

(** ** The shortfall round trip evaluated in binary64

    Two runs at a zero return, with [sum] as in CPython up to 3.11 (the
    factor is a sum of ones, which compensation leaves as it is). *)

(** 10000.0 saved, 500.0 a month, 35 years, a goal of 1000000.0: the
    projection with the extra contribution lands just below the goal, at a
    relative distance of about 4.5e-15. *)
Example round_trip_binary64_zero_return :
  needed_extra (A := binary64 pow_annex_f)
    (sum_left_to_right (A := binary64 pow_annex_f))
    (1000000 - 220000)%float 35 0%float
  = Ok 1857.1428571428571%float
  /\ project_savings (A := binary64 pow_annex_f)
       10000%float (500 + 1857.1428571428571)%float 35 0%float
     = Ok 999999.99999999546%float
  /\ PrimFloat.ltb 999999.99999999546 1000000 = true
  /\ PrimFloat.leb (1000000 * (1 - 1e-6)) 999999.99999999546 = true.
Proof. repeat split; vm_compute; reflexivity. Qed.

(** Nothing saved, nothing contributed, one year, and the smallest positive
    binary64 number as the goal: the extra contribution underflows to 0 and
    the second projection is 0 again. *)
Example round_trip_binary64_underflow :
  project_savings (A := binary64 pow_annex_f) 0%float 0%float 1 0%float
  = Ok 0%float
  /\ PrimFloat.ltb 0 0x1p-1074 = true
  /\ needed_extra (A := binary64 pow_annex_f)
       (sum_left_to_right (A := binary64 pow_annex_f))
       (0x1p-1074 - 0)%float 1 0%float
     = Ok 0%float
  /\ project_savings (A := binary64 pow_annex_f)
       0%float (0 + 0)%float 1 0%float
     = Ok 0%float.
Proof. repeat split; vm_compute; reflexivity. Qed.

(** ** Integers below 2^53 convert to binary64 without rounding *)

Lemma digits2_pos_size (m : positive) : digits2_pos m = Pos.size m.
Proof. induction m as [m IH | m IH |]; cbn; now rewrite ?IH. Qed.

Lemma digits2_pos_iter_xO (m s : positive) :
  digits2_pos (Pos.iter xO m s) = (digits2_pos m + s)%positive.
Proof.
  induction s as [| s IH] using Pos.peano_ind.
  - cbn. lia.
  - rewrite Pos.iter_succ. cbn [digits2_pos]. rewrite IH. lia.
Qed.

Lemma digits2_pos_below_2_53 (m : positive) :
  Z.pos m < 2 ^ 53 -> Z.pos (digits2_pos m) <= 53.
Proof.
  intros Hm. rewrite digits2_pos_size.
  pose proof (Pos.size_le m) as Hle.
  apply Pos2Z.pos_le_pos in Hle. rewrite Pos2Z.inj_pow in Hle.
  destruct (Z_le_gt_dec (Z.pos (Pos.size m)) 53) as [H | H]; [exact H |].
  exfalso.
  assert (H54 : 2 ^ 54 <= 2 ^ Z.pos (Pos.size m))
    by (apply Z.pow_le_mono_r; lia).
  change (Z.pos m~0) with (2 * Z.pos m) in Hle. lia.
Qed.

(** A 53-bit mantissa with an exponent in range is left as it is. *)
Lemma binary_round_aux_canonical (mz : positive) (ez : Z) :
  Z.pos (digits2_pos mz) = 53 -> -1074 <= ez <= 971 ->
  binary_round_aux prec emax false (Z.pos mz) ez loc_Exact
  = S754_finite false mz ez.
Proof.
  intros Hd He. unfold binary_round_aux.
  assert (H : shr_fexp prec emax (Z.pos mz) ez loc_Exact
              = ({| shr_m := Z.pos mz; shr_r := false; shr_s := false |}, ez)).
  { unfold shr_fexp. cbn [Zdigits2]. rewrite Hd.
    replace (fexp prec emax (53 + ez) - ez) with 0
      by (unfold fexp, SpecFloat.emin, prec, emax; lia).
    reflexivity. }
  rewrite H. cbn [shr_m loc_of_shr_record round_nearest_even].
  rewrite H. cbn [shr_m].
  destruct (Z.leb_spec ez (emax - prec)) as [_ | Hgt];
    [reflexivity | unfold emax, prec in Hgt; lia].
Qed.

Lemma binary_normalize_below_2_53 (m : positive) :
  Z.pos m < 2 ^ 53 ->
  exists (mz : positive) (ez : Z),
    binary_normalize prec emax (Z.pos m) 0 false = S754_finite false mz ez.
Proof.
  intros Hm. pose proof (digits2_pos_below_2_53 Hm) as Hd.
  cbn [binary_normalize]. unfold binary_round.
  replace (fexp prec emax (Z.pos (digits2_pos m) + 0))
    with (Z.pos (digits2_pos m) - 53)
    by (unfold fexp, SpecFloat.emin, prec, emax; lia).
  unfold shl_align.
  destruct (Z.pos (digits2_pos m) - 53 - 0) as [| s | s] eqn:Hs; try lia.
  - exists m, 0. apply binary_round_aux_canonical; lia.
  - eexists _, _. apply binary_round_aux_canonical.
    + rewrite digits2_pos_iter_xO. lia.
    + lia.
Qed.

Lemma float_of_int_below_2_53 (k : Z) :
  0 <= k < 2 ^ 53 -> float_of_int k = Ok (float_literal k).
Proof.
  intros [H0 Hk]. unfold float_of_int, float_literal.
  destruct k as [| m | m]; [reflexivity | | lia].
  destruct (binary_normalize_below_2_53 Hk) as (mz & ez & ->). reflexivity.
Qed.

(** ** The projector in binary64 at a zero return: repeated addition *)

Lemma pow_base_one (libm_pow : float -> float -> res float)
    (F : AnnexF libm_pow) (k : Z) :
  0 <= k < 2 ^ 53 -> pow (Arith := binary64 libm_pow) 1%float k = Ok 1%float.
Proof.
  intros Hk. cbn [pow binary64].
  rewrite float_of_int_below_2_53 by exact Hk. cbn [bind].
  apply (pow_one_base F).
Qed.

Lemma zero_return_loop (libm_pow : float -> float -> res float)
    (F : AnnexF libm_pow) (M : float) (months : Z) (ms : list Z) (fv : float) :
  (forall m, In m ms -> 0 <= months - m + 1 < 2 ^ 53) ->
  for_in ms
    (fun m fv =>
       bind (pow (Arith := binary64 libm_pow) 1%float (months - m + 1))
         (fun p => Ok (fv + M * p)%float))
    fv
  = Ok (Nat.iter (List.length ms) (fun fv => (fv + M)%float) fv).
Proof.
  revert fv. induction ms as [| m ms IH]; intros fv Hms; [reflexivity |].
  cbn [for_in List.length].
  rewrite (pow_base_one F) by (apply Hms; now left). cbn [bind].
  rewrite float_mul_one_r, IH by (intros m' Hm'; apply Hms; now right).
  now rewrite Nat.iter_succ_r.
Qed.

Lemma range_length (lo hi : Z) : List.length (range lo hi) = Z.to_nat (hi - lo).
Proof. unfold range. now rewrite length_map, length_seq. Qed.

Lemma in_range (lo hi m : Z) : In m (range lo hi) -> lo <= m < hi.
Proof.
  unfold range. rewrite in_map_iff. intros (i & <- & Hi).
  apply in_seq in Hi. lia.
Qed.

(** C3, amended: in binary64, whatever C library meets Annex F, the
    projection at a zero return over [Y > 0] years (with [12 * Y] below
    2^53) is the savings [S] with the contribution [M] added [12 * Y] times
    in a row, each addition rounded: the value of [S + M * Y * 12] up to
    these roundings, not exactly. *)
Theorem project_savings_zero_return_adds
    (libm_pow : float -> float -> res float) (F : AnnexF libm_pow)
    (S M : float) (Y : Z) :
  0 < Y -> Y * 12 < 2 ^ 53 ->
  project_savings (A := binary64 libm_pow) S M Y 0%float
  = Ok (Nat.iter (Z.to_nat (Y * 12)) (fun fv => (fv + M)%float) S).
Proof.
  intros HY Hbound. unfold project_savings.
  cbn [of_int add div mul binary64].
  replace (float_literal 1 + 0 / float_literal 100 / float_literal 12)%float
    with 1%float by (vm_compute; reflexivity).
  rewrite (pow_base_one F) by lia. cbn [bind].
  rewrite float_mul_one_r, (zero_return_loop F).
  - rewrite range_length. do 3 f_equal. lia.
  - intros m Hm. apply in_range in Hm. lia.
Qed.

Lemma project_savings_zero_return_adds_witness :
  project_savings (A := binary64 pow_annex_f)
    10000%float 500.10%float 35 0%float
  = Ok (Nat.iter (Z.to_nat (35 * 12)) (fun fv => (fv + 500.10)%float)
          10000%float).
Proof.
  apply (@project_savings_zero_return_adds pow_annex_f
           pow_annex_f_meets_annex_f 10000%float 500.10%float 35);
    [lia | reflexivity].
Defined.

(** * Further properties of the code *)

(** ** Allocation: order in the risk level and in the age *)

Ltac split_allocation :=
  unfold recommend_allocation; cbn [fst snd];
  repeat match goal with
         | |- context [Z.ltb ?a ?b] => destruct (Z.ltb_spec a b)
         | |- context [String.eqb ?a ?b] => destruct (String.eqb a b)
         end;
  try lia.

(** X1: at every age a higher risk level never gets a lower stock
    percentage: Low <= Medium <= High. *)
Theorem recommend_allocation_risk_order (age : Z) :
  fst (recommend_allocation age "Low") <= fst (recommend_allocation age "Medium")
  /\ fst (recommend_allocation age "Medium")
     <= fst (recommend_allocation age "High").
Proof.
  unfold recommend_allocation; cbn [fst snd String.eqb Ascii.eqb Bool.eqb].
  repeat match goal with
         | |- context [Z.ltb ?a ?b] => destruct (Z.ltb_spec a b)
         end; lia.
Qed.

(** X2: for a fixed risk level the stock percentage never rises with age
    (and the bond percentage never falls). *)
Theorem recommend_allocation_age_order (age age' : Z) (risk : string) :
  age <= age' ->
  fst (recommend_allocation age' risk) <= fst (recommend_allocation age risk)
  /\ snd (recommend_allocation age risk) <= snd (recommend_allocation age' risk).
Proof. intros Hle. split_allocation. Qed.

Lemma recommend_allocation_age_order_witness :
  fst (recommend_allocation 64 "Low") <= fst (recommend_allocation 25 "Low")
  /\ snd (recommend_allocation 25 "Low") <= snd (recommend_allocation 64 "Low").
Proof. apply (@recommend_allocation_age_order 25 64 "Low"). lia. Defined.

(** X3: the range of the stock percentage of each risk level: 30 to 70 for
    Low, 50 to 90 for Medium, 60 to 95 for High. *)
Theorem recommend_allocation_range_by_risk (age : Z) :
  30 <= fst (recommend_allocation age "Low") <= 70
  /\ 50 <= fst (recommend_allocation age "Medium") <= 90
  /\ 60 <= fst (recommend_allocation age "High") <= 95.
Proof.
  unfold recommend_allocation; cbn [fst snd String.eqb Ascii.eqb Bool.eqb].
  repeat match goal with
         | |- context [Z.ltb ?a ?b] => destruct (Z.ltb_spec a b)
         end; lia.
Qed.

(** ** Account: which profiles get which advice *)

Lemma account_texts_distinct :
  Text.employer_401k <> Text.self_employed
  /\ Text.employer_401k <> Text.roth
  /\ Text.employer_401k <> Text.traditional
  /\ Text.self_employed <> Text.roth
  /\ Text.self_employed <> Text.traditional
  /\ Text.roth <> Text.traditional.
Proof. repeat split; discriminate. Qed.

(** X4: the Traditional-IRA advice is given exactly to a user who is neither
    employed with a 401(k) nor self-employed and whose income is known and at
    least 145000; an unknown income never gets it. *)
Theorem recommend_account_traditional_iff
    (employment : string) (has_401k : bool) (income : option Z) :
  recommend_account employment has_401k income = Text.traditional
  <-> (employment = "Employed"%string /\ has_401k = true -> False)
      /\ employment <> "Self-Employed"%string
      /\ exists i : Z, income = Some i /\ 145000 <= i.
Proof.
  unfold recommend_account.
  assert (Hrest :
    (if (employment =? "Self-Employed")%string then Text.self_employed
     else if match income with None => true | Some i => i <? 145000 end
          then Text.roth else Text.traditional) = Text.traditional
    <-> employment <> "Self-Employed"%string
        /\ exists i : Z, income = Some i /\ 145000 <= i).
  { destruct (String.eqb_spec employment "Self-Employed") as [Hs | Hs].
    - split; [discriminate | intros [H _]; contradiction].
    - destruct income as [i |]; [destruct (Z.ltb_spec i 145000) |].
      + split; [discriminate |].
        intros (_ & i' & Hi & Hge). injection Hi as <-. lia.
      + split; [| reflexivity].
        intros _. split; [assumption |]. now exists i.
      + split; [discriminate |].
        intros (_ & i' & Hi & _). discriminate. }
  destruct (String.eqb_spec employment "Employed") as [He | He];
    destruct has_401k; cbn [andb].
  - split; [discriminate | intros (H & _); exfalso; auto].
  - rewrite Hrest. split; [intros H; split; [intros [_ D]; discriminate | exact H] | tauto].
  - rewrite Hrest. split; [intros H; split; [tauto | exact H] | tauto].
  - rewrite Hrest. split; [intros H; split; [tauto | exact H] | tauto].
Qed.

(** X5: with the 401(k) flag as the form computes it (lines 74-76), the
    employer-match advice is given exactly to an employed user who answered
    "Yes"; nobody else gets it, whatever the income. *)
Theorem employer_advice_iff
    (employment answer : string) (income : option Z) :
  recommend_account employment (has_401k_input employment answer) income
  = Text.employer_401k
  <-> employment = "Employed"%string /\ answer = "Yes"%string.
Proof.
  unfold recommend_account, has_401k_input.
  destruct (String.eqb_spec employment "Employed") as [He | He].
  - destruct (String.eqb_spec answer "Yes") as [Ha | Ha]; cbn [andb].
    + tauto.
    + subst employment. cbn.
      destruct income as [i |]; [destruct (i <? 145000) |];
        (split; [discriminate | tauto]).
  - cbn [andb].
    destruct (String.eqb employment "Self-Employed");
      [| destruct income as [i |]; [destruct (i <? 145000) |]];
      (split; [discriminate | tauto]).
Qed.

(** X6: the 401(k) flag matters for an employed user only: for every other
    employment status the advice is the same with and without it. *)
Theorem recommend_account_flag_irrelevant
    (employment : string) (has_401k has_401k' : bool) (income : option Z) :
  employment <> "Employed"%string ->
  recommend_account employment has_401k income
  = recommend_account employment has_401k' income.
Proof.
  intros He. unfold recommend_account.
  destruct (String.eqb_spec employment "Employed"); [contradiction |].
  reflexivity.
Qed.

Lemma recommend_account_flag_irrelevant_witness :
  recommend_account "Not Working" true (Some 90000)
  = recommend_account "Not Working" false (Some 90000).
Proof.
  apply (@recommend_account_flag_irrelevant "Not Working" true false
           (Some 90000)).
  discriminate.
Defined.

(** ** Risk explanation *)

(** X7: the explanation is the Low text exactly for "Low", the High text
    exactly for "High", and the Medium text for every other string. *)
Theorem explain_risk_iff (risk : string) :
  (explain_risk risk = Text.low_risk <-> risk = "Low"%string)
  /\ (explain_risk risk = Text.high_risk <-> risk = "High"%string)
  /\ (explain_risk risk = Text.medium_risk
      <-> risk <> "Low"%string /\ risk <> "High"%string).
Proof.
  unfold explain_risk.
  destruct (String.eqb_spec risk "Low") as [Hl | Hl];
    [| destruct (String.eqb_spec risk "High") as [Hh | Hh]];
    repeat split; try discriminate; try congruence; try tauto;
    intros [H1 H2]; congruence.
Qed.

(** ** Contribution guidance and the income input *)

(** X8: through the income input of the form, the guidance is the generic
    text exactly when the entered income is 0; for any other entry it is a
    computed range or an exception, never the generic text. *)
Theorem generic_guidance_iff_zero (entered : Z) :
  contribution_guidance (income_input entered) = Ok Text.generic_guidance
  <-> entered = 0.
Proof.
  unfold income_input. destruct (Z.eqb_spec entered 0) as [-> | Hne].
  - split; reflexivity.
  - split; [| contradiction].
    unfold contribution_guidance, int_times_float.
    destruct (float_of_int entered) as [x | e]; cbn [bind]; [| discriminate].
    destruct (round _) as [lo | e]; cbn [bind]; [| discriminate].
    destruct (round _) as [hi | e]; cbn [bind]; [| discriminate].
    intros H. exfalso.
    apply (@generic_guidance_is_not_a_range lo hi). congruence.
Qed.

(** ** The projector at a negative horizon *)

(** X14: the projector accepts a negative horizon, in every arithmetic:
    the loop does not run, so the result is the lump-sum term
    [current_savings * pow(1 + r, 12 * years)] alone (or the exception of
    that [pow]), and the contribution plays no part in it. *)
Theorem project_savings_negative_horizon
    {num : Type} {A : Arith num}
    (current_savings monthly_contribution monthly_contribution' : num)
    (years : Z) (annual_return : num) :
  years < 0 ->
  project_savings current_savings monthly_contribution years annual_return
  = lump_sum_fv current_savings
      (annual_return / of_int 100 / of_int 12)%num (years * 12)
  /\ project_savings current_savings monthly_contribution years annual_return
     = project_savings current_savings monthly_contribution' years
         annual_return.
Proof.
  intros Hneg. split.
  - now apply project_savings_negative_years.
  - now rewrite !project_savings_negative_years.
Qed.

Lemma project_savings_negative_horizon_witness :
  project_savings (A := binary64 pow_annex_f)
    10000.5%float 500%float (-2) 0%float
  = lump_sum_fv (A := binary64 pow_annex_f) 10000.5%float
      (0 / 100 / 12)%float (-2 * 12)
  /\ project_savings (A := binary64 pow_annex_f)
       10000.5%float 500%float (-2) 0%float
     = project_savings (A := binary64 pow_annex_f)
         10000.5%float 750%float (-2) 0%float.
Proof.
  apply (@project_savings_negative_horizon float (binary64 pow_annex_f)
           10000.5%float 500%float 750%float (-2) 0%float).
  lia.
Defined.

(** ** The plan handler *)

Lemma allocation_pair (age : Z) (risk : string) :
  exists stock : Z,
    30 <= stock <= 95
    /\ recommend_allocation age risk = (stock, 100 - stock).
Proof.
  unfold recommend_allocation. eexists. split; [| reflexivity].
  destruct (age <? 30), (age <? 40), (age <? 50), (age <? 60),
    (risk =? "High")%string, (risk =? "Low")%string; lia.
Qed.

(** X18: the plan is shown in full or not at all.  When the contribution
    guidance raises (an income too large for a [float]), the exception
    escapes before anything is displayed; otherwise exactly six widgets are
    displayed, and the allocation line shows a stock percentage between 30
    and 95 with the bond percentage that completes it to 100. *)
Theorem generate_retirement_plan_outcome
    (employment : string) (has_401k : bool) (income : option Z)
    (age : Z) (risk : string) :
  match contribution_guidance income with
  | Raise e =>
      generate_retirement_plan employment has_401k income age risk = Raise e
  | Ok contrib =>
      exists (stock : Z) (heading advice risk_line tip : widget),
        30 <= stock <= 95
        /\ generate_retirement_plan employment has_401k income age risk
           = Ok [ heading; advice;
                  st_write ("**Suggested Investment Allocation:** "
                            ++ str_of_int stock ++ "% Stocks / "
                            ++ str_of_int (100 - stock) ++ "% Bonds");
                  st_write ("**Contribution Guidance:** " ++ contrib);
                  risk_line; tip ]
  end.
Proof.
  unfold generate_retirement_plan.
  destruct (allocation_pair age risk) as (stock & Hrange & ->).
  destruct (contribution_guidance income) as [contrib | e]; cbn [bind].
  - exists stock. do 4 eexists. split; [exact Hrange | reflexivity].
  - reflexivity.
Qed.

(** ** The projector in binary64 does not depend on the C library at a
    zero return *)

Lemma pow_annex_f_or_base_meets_annex_f : AnnexF pow_annex_f_or_base.
Proof.
  split.
  - intros x. reflexivity.
  - intros y. unfold pow_annex_f_or_base.
    destruct (PrimFloat.eqb y 0); reflexivity.
Qed.

(** X19: at a zero return every call of [math.pow] has base 1.0, which
    Annex F fixes, so two C libraries that meet Annex F give the same
    binary64 projection, bit for bit, exceptions included. *)
Theorem project_savings_zero_return_libm_independent
    (libm1 libm2 : float -> float -> res float)
    (F1 : AnnexF libm1) (F2 : AnnexF libm2) (S M : float) (Y : Z) :
  project_savings (A := binary64 libm1) S M Y 0%float
  = project_savings (A := binary64 libm2) S M Y 0%float.
Proof.
  rewrite (project_savings_zero_return_any_libm F1).
  now rewrite (project_savings_zero_return_any_libm F2).
Qed.

Lemma project_savings_zero_return_libm_independent_witness :
  project_savings (A := binary64 pow_annex_f_or_base)
    10000%float 500.10%float 35 0%float
  = project_savings (A := binary64 pow_annex_f)
      10000%float 500.10%float 35 0%float.
Proof.
  apply (@project_savings_zero_return_libm_independent pow_annex_f_or_base
           pow_annex_f pow_annex_f_or_base_meets_annex_f
           pow_annex_f_meets_annex_f).
Defined.
